(** * The QR decomposition of Homework1.ipynb, Question 3

    The notebook gives [qr_decomposition] in full.  The three helpers it
    calls, [normalize_col], [proj_a2b] and [orthogonalize], are defined in
    the notebook with a docstring and the body [pass]: each returns None
    whatever it is given and touches nothing.  The development embeds the
    four functions as they are written and derives what a call of
    [qr_decomposition] does.

    Arrays are float64 arrays, as the interface of the decomposition asks;
    their entries are binary64 numbers. *)

From Stdlib Require Import Floats List Arith Lia Bool.
Import ListNotations.
#[local] Set Warnings "-inexact-float".

(** ** Failures *)

(** The ways a call can fail.  [ShapeMismatch] is the failure of
    [assert m == n] and numpy's complaint about operands whose shapes
    disagree; [IndexError] is numpy's out-of-bounds index; [TypeError] and
    [AttributeError] are Python's for subscripting None and for [None.T];
    [DegenerateInput] is the division by a zero norm of the specification,
    which no statement of the notebook raises. *)
Inductive error : Type :=
  | ShapeMismatch
  | IndexError
  | TypeError
  | AttributeError
  | DegenerateInput.

Inductive result (T : Type) : Type :=
  | Ok (x : T)
  | Err (e : error).
Arguments Ok {T} x.
Arguments Err {T} e.

Definition bind {T U : Type} (r : result T) (k : T -> result U) : result U :=
  match r with
  | Ok x => k x
  | Err e => Err e
  end.

Notation "x <- r ;; k" := (bind r (fun x => k))
  (at level 61, r at next level, right associativity).

(** ** Arrays *)

(** A one-dimensional float64 array: its length and its entries. *)
Record vector : Type := mkvec { size : nat; vget : nat -> float }.

(** A two-dimensional float64 array: [A.shape] and the entry at
    (row, column). *)
Record ndarray : Type :=
  mkarr { nrows : nat; ncols : nat; get : nat -> nat -> float }.

Definition shape (A : ndarray) : nat * nat := (nrows A, ncols A).

(** The [m] by [n] array whose rows are listed. *)
Definition of_rows (m n : nat) (rows : list (list float)) : ndarray :=
  mkarr m n (fun i j => nth j (nth i rows []) 0%float).

(** [np.array(rows)] as a two-dimensional array: the rows must have one
    length (numpy rejects ragged rows), and there must be a row (the empty
    list gives a one-dimensional array, which has no [m, n = A.shape]). *)
Definition np_array (rows : list (list float)) : option ndarray :=
  match rows with
  | [] => None
  | r :: _ =>
      if forallb (fun r' => length r' =? length r) rows
      then Some (of_rows (length rows) (length r) rows)
      else None
  end.

(** [np.array(l)] for a list of numbers. *)
Definition np_vector (l : list float) : vector :=
  mkvec (length l) (fun i => nth i l 0%float).

(** [np.copy(A)] *)
Definition copy (A : ndarray) : ndarray :=
  mkarr (nrows A) (ncols A) (fun i j => get A i j).

(** Column [j] of [A] as a vector. *)
Definition col (A : ndarray) (j : nat) : vector :=
  mkvec (nrows A) (fun r => get A r j).

(** [A[:, j]] read as a value *)
Definition getcol (A : ndarray) (j : nat) : result vector :=
  if j <? ncols A then Ok (col A j) else Err IndexError.

(** [Q[:, j] = v], where [v] is a one-dimensional array or None.  A
    float64 array stores None as nan; a length-one array is broadcast along
    the column. *)
Definition setcol (Q : ndarray) (j : nat) (v : option vector)
  : result ndarray :=
  if negb (j <? ncols Q) then Err IndexError
  else
    match v with
    | None =>
        Ok (mkarr (nrows Q) (ncols Q)
                  (fun r c => if c =? j then nan else get Q r c))
    | Some v =>
        if size v =? nrows Q then
          Ok (mkarr (nrows Q) (ncols Q)
                    (fun r c => if c =? j then vget v r else get Q r c))
        else if size v =? 1 then
          Ok (mkarr (nrows Q) (ncols Q)
                    (fun r c => if c =? j then vget v 0 else get Q r c))
        else Err ShapeMismatch
    end.

(** [A.T] *)
Definition transpose (A : ndarray) : ndarray :=
  mkarr (ncols A) (nrows A) (fun i j => get A j i).

(** The sum of [f 0 .. f (n-1)], added from the left.  (For more than two
    terms the order in which numpy's product adds them is not fixed; the
    decomposition reaches its product with one term only.) *)
Fixpoint fsum (n : nat) (f : nat -> float) : float :=
  match n with
  | O => 0%float
  | S k =>
      match k with
      | O => f O
      | S _ => (fsum k f + f k)%float
      end
  end.

(** [A @ B] *)
Definition matmul (A B : ndarray) : result ndarray :=
  if ncols A =? nrows B then
    Ok (mkarr (nrows A) (ncols B)
          (fun i j => fsum (ncols A) (fun k => (get A i k * get B k j)%float)))
  else Err ShapeMismatch.

(** [np.eye(n)] *)
Definition eye (n : nat) : ndarray :=
  mkarr n n (fun i j => if i =? j then 1%float else 0%float).

(** ** The three helpers *)

(** [def normalize_col(x): ... pass]: returns None. *)
Definition normalize_col (x : vector) : option vector := None.

(** [def proj_a2b(a, b): ... pass]: returns None. *)
Definition proj_a2b (a b : vector) : option vector := None.

(** [def orthogonalize(U, n): ... pass]: returns None and leaves [U] as
    it is.  [U] is whatever the name [Q] of the caller is bound to, an
    array or None. *)
Definition orthogonalize (U : option ndarray) (n : nat) : option ndarray :=
  None.

(** ** The decomposition *)

(** [Q[:, j]] where the name [Q] is bound to an array or to None. *)
Definition getcol_of (Q : option ndarray) (j : nat) : result vector :=
  match Q with
  | Some Q => getcol Q j
  | None => Err TypeError
  end.

(** [Q[:, j] = v] where the name [Q] is bound to an array or to None. *)
Definition setcol_of (Q : option ndarray) (j : nat) (v : option vector)
  : result ndarray :=
  match Q with
  | Some Q => setcol Q j v
  | None => Err TypeError
  end.

(** [for i in range(lo, lo + len): Q = body(i, Q)] *)
Fixpoint for_range (lo len : nat)
  (body : nat -> option ndarray -> result (option ndarray))
  (Q : option ndarray) : result (option ndarray) :=
  match len with
  | O => Ok Q
  | S len' => Q' <- body lo Q ;; for_range (S lo) len' body Q'
  end.

(** One turn of the loop of [qr_decomposition]:
    [Q = orthogonalize(Q, i)], then [Q[:, i] = normalize_col(Q[:, i])]. *)
Definition qr_step (i : nat) (Q : option ndarray)
  : result (option ndarray) :=
  let Q1 := orthogonalize Q i in
  qi <- getcol_of Q1 i ;;
  Q2 <- setcol_of Q1 i (normalize_col qi) ;;
  Ok (Some Q2).

Definition qr_decomposition (A : ndarray) : result (ndarray * ndarray) :=
  let '(m, n) := shape A in
  if negb (m =? n) then Err ShapeMismatch
  else
    let Q := copy A in
    a0 <- getcol A 0 ;;
    Q0 <- setcol Q 0 (normalize_col a0) ;;
    Qm <- for_range 1 (m - 1) qr_step (Some Q0) ;;
    match Qm with
    | None => Err AttributeError
    | Some Qf =>
        R <- matmul (transpose Qf) A ;;
        Ok (Qf, R)
    end.

(** ** Arrays in a store *)

(** numpy arrays are mutable objects that names refer to.  The store holds
    the two-dimensional arrays; a reference is a position in it.  Allocation
    appends, assignment to a column updates in place. *)
Definition loc : Type := nat.
Definition heap : Type := list ndarray.

(** A computation that reads and updates the store and may raise; the store
    at the moment of the failure is kept. *)
Definition ST (T : Type) : Type := heap -> result T * heap.

Definition ret {T : Type} (x : T) : ST T := fun h => (Ok x, h).

Definition raise {T : Type} (e : error) : ST T := fun h => (Err e, h).

Definition lift {T : Type} (r : result T) : ST T := fun h => (r, h).

Definition st_bind {T U : Type} (m : ST T) (k : T -> ST U) : ST U :=
  fun h =>
    match m h with
    | (Ok x, h') => k x h'
    | (Err e, h') => (Err e, h')
    end.

Notation "x <~ m ;; k" := (st_bind m (fun x => k))
  (at level 61, m at next level, right associativity).

(** The array a reference points to (references are never dangling). *)
Definition load (l : loc) : ST ndarray := fun h => (Ok (nth l h (eye 0)), h).

Fixpoint update (l : loc) (X : ndarray) (h : heap) : heap :=
  match h, l with
  | [], _ => []
  | _ :: t, O => X :: t
  | Y :: t, S l' => Y :: update l' X t
  end.

Definition store (l : loc) (X : ndarray) : ST unit :=
  fun h => (Ok tt, update l X h).

Definition alloc (X : ndarray) : ST loc :=
  fun h => (Ok (length h), h ++ [X]).

(** [np.copy(A)]: a new array. *)
Definition h_copy (a : loc) : ST loc :=
  A <~ load a ;; alloc (copy A).

(** [A[:, j]], read. *)
Definition h_getcol (a : loc) (j : nat) : ST vector :=
  A <~ load a ;; lift (getcol A j).

(** [Q[:, j] = v], in place. *)
Definition h_setcol (q : loc) (j : nat) (v : option vector) : ST unit :=
  Q <~ load q ;; Q' <~ lift (setcol Q j v) ;; store q Q'.

(** [orthogonalize(U, n)] on references: the body is [pass], so nothing is
    read or written and None is returned. *)
Definition h_orthogonalize (u : option loc) (n : nat) : ST (option loc) :=
  ret None.

(** [Q[:, j]] where the name [Q] is bound to a reference or to None. *)
Definition h_getcol_of (q : option loc) (j : nat) : ST vector :=
  match q with
  | Some q => h_getcol q j
  | None => raise TypeError
  end.

(** [Q[:, j] = v] where the name [Q] is bound to a reference or to None. *)
Definition h_setcol_of (q : option loc) (j : nat) (v : option vector)
  : ST unit :=
  match q with
  | Some q => h_setcol q j v
  | None => raise TypeError
  end.

(** [Q.T @ A]: a new array. *)
Definition h_matmul_T (q a : loc) : ST loc :=
  Q <~ load q ;; A <~ load a ;; T <~ lift (matmul (transpose Q) A) ;; alloc T.

Fixpoint h_for_range (lo len : nat)
  (body : nat -> option loc -> ST (option loc)) (q : option loc)
  : ST (option loc) :=
  match len with
  | O => ret q
  | S len' => q' <~ body lo q ;; h_for_range (S lo) len' body q'
  end.

Definition h_qr_step (i : nat) (q : option loc) : ST (option loc) :=
  q1 <~ h_orthogonalize q i ;;
  qi <~ h_getcol_of q1 i ;;
  _ <~ h_setcol_of q1 i (normalize_col qi) ;;
  ret q1.

(** [qr_decomposition] on references: the argument [a] is the caller's
    array. *)
Definition h_qr_decomposition (a : loc) : ST (loc * loc) :=
  A <~ load a ;;
  let '(m, n) := shape A in
  if negb (m =? n) then raise ShapeMismatch
  else
    q <~ h_copy a ;;
    a0 <~ h_getcol a 0 ;;
    _ <~ h_setcol q 0 (normalize_col a0) ;;
    qm <~ h_for_range 1 (m - 1) h_qr_step (Some q) ;;
    match qm with
    | None => raise AttributeError
    | Some qf =>
        r <~ h_matmul_T qf a ;;
        ret (qf, r)
    end.

(** ** Vocabulary of the properties *)

Definition square (A : ndarray) : Prop := nrows A = ncols A.

(** Same shape and same entries. *)
Definition mat_eq (A B : ndarray) : Prop :=
  nrows A = nrows B /\ ncols A = ncols B /\
  forall i j, (i < nrows A)%nat -> (j < ncols A)%nat -> get A i j = get B i j.

(** [A @ B] is defined and equals [C]. *)
Definition is_product (A B C : ndarray) : Prop :=
  exists P, matmul A B = Ok P /\ mat_eq P C.

(** Q^T @ Q is the identity. *)
Definition orthonormal (Q : ndarray) : Prop :=
  is_product (transpose Q) Q (eye (ncols Q)).

(** Every entry is nan. *)
Definition all_nan (A : ndarray) : Prop :=
  forall i j, (i < nrows A)%nat -> (j < ncols A)%nat -> get A i j = nan.

(** The working copy of [A] once [Q[:, 0] = None] has run. *)
Definition Q_first (A : ndarray) : ndarray :=
  mkarr (nrows A) (ncols A) (fun r c => if c =? 0 then nan else get A r c).

(** [Q.T @ A] for that working copy. *)
Definition R_first (A : ndarray) : ndarray :=
  mkarr (ncols A) (ncols A)
    (fun i j =>
       fsum (nrows A) (fun k => (get (Q_first A) k i * get A k j)%float)).

(** ** Concrete arrays *)

(** [A = np.array([[1.0, 0.5, 0.2], [0.5, 0.5, 1.0], [0.0, 1.0, 1.0]])],
    the matrix the notebook decomposes. *)
Definition A_notebook : ndarray :=
  of_rows 3 3 [[1; 0.5; 0.2]; [0.5; 0.5; 1]; [0; 1; 1]]%float.

(** [B = np.array([[1.0, 0.0], [2.0, 1.0], [3.0, 2.0]])], of Question 1. *)
Definition B_notebook : ndarray :=
  of_rows 3 2 [[1; 0]; [2; 1]; [3; 2]]%float.

(** [np.array([[1.0, 0.0, 0.0], [0.0, 1.0, 0.0], [0.0, 0.0, 1.0]])] *)
Definition I3 : ndarray :=
  of_rows 3 3 [[1; 0; 0]; [0; 1; 0]; [0; 0; 1]]%float.

(** [np.array([[2.0]])] *)
Definition A_1x1 : ndarray := of_rows 1 1 [[2]]%float.


(** [np.array([[1.0, 2.0], [2.0, 4.0]])]: the second column is twice the
    first. *)
Definition A_dependent : ndarray := of_rows 2 2 [[1; 2]; [2; 4]]%float.

(** [np.array([[1.0, 1.0, 1.0], [1.0, -1.0, 2.0], [0.0, 0.0, 3.0]])]: the
    first two columns are nonzero and orthogonal. *)
Definition U_example : ndarray :=
  of_rows 3 3 [[1; 1; 1]; [1; -1; 2]; [0; 0; 3]]%float.

(** [np.array([3.0, 4.0])] and [np.array([1.0, 2.0])] *)
Definition v_3_4 : vector := np_vector [3; 4]%float.

Definition v_1_2 : vector := np_vector [1; 2]%float.


(** ** The concrete arrays are numpy's *)

Lemma A_notebook_literal :
  np_array [[1; 0.5; 0.2]; [0.5; 0.5; 1]; [0; 1; 1]]%float = Some A_notebook.
Proof. reflexivity. Qed.

Lemma B_notebook_literal :
  np_array [[1; 0]; [2; 1]; [3; 2]]%float = Some B_notebook.
Proof. reflexivity. Qed.

Lemma np_array_empty : np_array [] = None.
Proof. reflexivity. Qed.

Lemma np_array_ragged : np_array [[1; 2]; [3]]%float = None.
Proof. reflexivity. Qed.

(** ** nan *)

Lemma nan_mul (x : float) : (nan * x)%float = nan.
Proof. apply Prim2SF_inj. rewrite mul_spec. reflexivity. Qed.

Lemma nan_not_one : nan <> 1%float.
Proof.
  intros H.
  assert (E : is_nan nan = is_nan 1%float) by (rewrite H; reflexivity).
  vm_compute in E. discriminate.
Qed.

(** ** The decomposition, by the shape of the input *)

(** A turn of the loop fails: [orthogonalize] has returned None, and
    [Q[:, i]] subscripts it. *)
Lemma qr_step_raises i Q : qr_step i Q = Err TypeError.
Proof. reflexivity. Qed.

Lemma qr_decomposition_not_square A :
  nrows A <> ncols A -> qr_decomposition A = Err ShapeMismatch.
Proof.
  intros H. unfold qr_decomposition, shape.
  replace (nrows A =? ncols A) with false
    by (symmetry; apply Nat.eqb_neq; exact H).
  reflexivity.
Qed.

Lemma qr_decomposition_no_column A :
  nrows A = 0%nat -> ncols A = 0%nat -> qr_decomposition A = Err IndexError.
Proof.
  intros Hr Hc. unfold qr_decomposition, shape, getcol.
  rewrite Hr, Hc. reflexivity.
Qed.

Lemma qr_decomposition_one A :
  nrows A = 1%nat -> ncols A = 1%nat ->
  qr_decomposition A = Ok (Q_first A, R_first A).
Proof.
  intros Hr Hc. unfold qr_decomposition, shape, getcol, setcol, matmul.
  rewrite Hr, Hc. simpl. rewrite Hr, Hc. simpl.
  unfold Q_first, R_first. rewrite Hr, Hc. reflexivity.
Qed.

Lemma qr_decomposition_large A :
  nrows A = ncols A -> (2 <= nrows A)%nat ->
  qr_decomposition A = Err TypeError.
Proof.
  intros Hsq Hn. unfold qr_decomposition, shape, getcol, setcol. simpl.
  rewrite <- Hsq, Nat.eqb_refl.
  replace (0 <? nrows A) with true by (symmetry; apply Nat.ltb_lt; lia).
  simpl.
  destruct (nrows A) as [|[|k]] eqn:E; try lia.
  reflexivity.
Qed.

Lemma Q_first_nan A : ncols A = 1%nat -> all_nan (Q_first A).
Proof.
  intros Hc i j Hi Hj. simpl in *.
  replace j with 0%nat by lia. reflexivity.
Qed.

Lemma R_first_nan A : nrows A = 1%nat -> ncols A = 1%nat -> all_nan (R_first A).
Proof.
  intros Hr Hc i j Hi Hj. simpl in *. rewrite Hr. simpl.
  replace i with 0%nat by lia. simpl. apply nan_mul.
Qed.

(** The four outcomes. *)
Lemma qr_outcome A :
  (nrows A <> ncols A /\ qr_decomposition A = Err ShapeMismatch) \/
  (nrows A = 0%nat /\ ncols A = 0%nat /\
   qr_decomposition A = Err IndexError) \/
  (nrows A = 1%nat /\ ncols A = 1%nat /\
   qr_decomposition A = Ok (Q_first A, R_first A)) \/
  (nrows A = ncols A /\ (2 <= nrows A)%nat /\
   qr_decomposition A = Err TypeError).
Proof.
  destruct (Nat.eq_dec (nrows A) (ncols A)) as [Hsq|Hns].
  2:{ left. split; [exact Hns | apply qr_decomposition_not_square; exact Hns]. }
  right.
  destruct (nrows A) as [|[|k]] eqn:E.
  - left. split; [reflexivity|]. split; [lia|].
    apply qr_decomposition_no_column; lia.
  - right; left. split; [reflexivity|]. split; [lia|].
    apply qr_decomposition_one; lia.
  - right; right. split; [exact Hsq|]. split; [lia|].
    apply qr_decomposition_large; lia.
Qed.

Lemma qr_ok_inv A Q T :
  qr_decomposition A = Ok (Q, T) ->
  nrows A = 1%nat /\ ncols A = 1%nat /\ Q = Q_first A /\ T = R_first A.
Proof.
  intros H.
  destruct (qr_outcome A) as [[_ E]|[(_ & _ & E)|[(Hr & Hc & E)|(_ & _ & E)]]];
    rewrite E in H; try discriminate.
  injection H as <- <-. tauto.
Qed.

Lemma qr_err_inv A e :
  qr_decomposition A = Err e ->
  match e with
  | ShapeMismatch => nrows A <> ncols A
  | IndexError => nrows A = 0%nat /\ ncols A = 0%nat
  | TypeError => nrows A = ncols A /\ (2 <= nrows A)%nat
  | AttributeError => False
  | DegenerateInput => False
  end.
Proof.
  intros H.
  destruct (qr_outcome A)
    as [[Hns E]|[(Hr & Hc & E)|[(_ & _ & E)|(Hsq & Hn & E)]]];
    rewrite E in H; try discriminate; injection H as <-; tauto.
Qed.

(** Q^T @ Q of the returned Q is nan, not one. *)
Lemma Q_first_not_orthonormal A :
  nrows A = 1%nat -> ncols A = 1%nat -> ~ orthonormal (Q_first A).
Proof.
  intros Hr Hc [P [HP (_ & _ & He)]].
  unfold matmul in HP. simpl in HP. rewrite Nat.eqb_refl in HP.
  injection HP as <-. simpl in He. rewrite Hr, Hc in He.
  specialize (He 0%nat 0%nat (Nat.lt_0_1) (Nat.lt_0_1)). simpl in He.
  try rewrite nan_mul in He. exact (nan_not_one He).
Qed.

(** ** The helpers *)

(** C6: what the code does where the claim expects x divided by its norm:
    [normalize_col] returns None on every vector, nonzero or not. *)
Theorem normalize_col_none (x : vector) : normalize_col x = None.
Proof. reflexivity. Qed.

Lemma normalize_col_none_witness : normalize_col v_3_4 = None.
Proof. exact (normalize_col_none v_3_4). Defined.

(** C7: what the code does where the claim expects the projection of [a]
    onto [b]: [proj_a2b] returns None on every pair of vectors. *)
Theorem proj_a2b_none (a b : vector) : proj_a2b a b = None.
Proof. reflexivity. Qed.

Lemma proj_a2b_none_witness : proj_a2b v_1_2 v_3_4 = None.
Proof. exact (proj_a2b_none v_1_2 v_3_4). Defined.

(** C8: what the code does where the claim expects column [n] to be
    replaced: [orthogonalize] returns None whatever it is given, and on
    references it leaves the store, hence every column of [U], as it
    was. *)
Theorem orthogonalize_none (U : option ndarray) (u : option loc) (n : nat)
  (h : heap) :
  orthogonalize U n = None /\ h_orthogonalize u n h = (Ok None, h).
Proof. split; reflexivity. Qed.

Lemma orthogonalize_none_witness :
  orthogonalize (Some U_example) 2 = None /\
  h_orthogonalize (Some 0%nat) 2 [U_example] = (Ok None, [U_example]).
Proof. exact (orthogonalize_none (Some U_example) (Some 0%nat) 2 [U_example]). Defined.

(** ** The claims about the decomposition *)

(** C1: what the code does where the claim expects a pair with
    Q @ R = A: on every square matrix with two rows or more the call
    raises TypeError, in the first turn of the loop, and returns
    nothing. *)
Theorem qr_large_type_error (A : ndarray) :
  square A -> (2 <= nrows A)%nat -> qr_decomposition A = Err TypeError.
Proof. exact (qr_decomposition_large A). Qed.

Lemma qr_large_type_error_witness :
  square A_notebook /\ (2 <= nrows A_notebook)%nat /\
  qr_decomposition A_notebook = Err TypeError.
Proof.
  split; [reflexivity|]. split; [simpl; lia|].
  apply (qr_large_type_error A_notebook); [reflexivity | simpl; lia].
Defined.

(** C2: what the code does where the claim expects an orthonormal Q: on
    every one by one matrix the call returns a pair whose Q and R hold
    nan, and Q^T @ Q is not the identity. *)
Theorem qr_one_by_one_nan (A : ndarray) :
  nrows A = 1%nat -> ncols A = 1%nat ->
  exists Q T, qr_decomposition A = Ok (Q, T) /\
    shape Q = (1, 1)%nat /\ shape T = (1, 1)%nat /\
    get Q 0%nat 0%nat = nan /\ get T 0%nat 0%nat = nan /\
    ~ orthonormal Q.
Proof.
  intros Hr Hc. exists (Q_first A), (R_first A).
  split; [exact (qr_decomposition_one A Hr Hc)|].
  split; [unfold shape; simpl; congruence|].
  split; [unfold shape; simpl; congruence|].
  split; [reflexivity|]. split.
  - apply (R_first_nan A Hr Hc); simpl; lia.
  - exact (Q_first_not_orthonormal A Hr Hc).
Qed.

Lemma qr_one_by_one_nan_witness :
  nrows A_1x1 = 1%nat /\ ncols A_1x1 = 1%nat /\
  exists Q T, qr_decomposition A_1x1 = Ok (Q, T) /\
    shape Q = (1, 1)%nat /\ shape T = (1, 1)%nat /\
    get Q 0%nat 0%nat = nan /\ get T 0%nat 0%nat = nan /\
    ~ orthonormal Q.
Proof.
  split; [reflexivity|]. split; [reflexivity|].
  apply (qr_one_by_one_nan A_1x1); reflexivity.
Defined.

(** C3: what the code does where the claim expects an upper-triangular
    R = Q^T @ A: an R is returned for one by one input only, and it holds
    nan. *)
Theorem qr_returns_one_by_one_only (A Q T : ndarray) :
  qr_decomposition A = Ok (Q, T) ->
  nrows A = 1%nat /\ ncols A = 1%nat /\ get T 0%nat 0%nat = nan.
Proof.
  intros H. destruct (qr_ok_inv A Q T H) as (Hr & Hc & _ & ->).
  split; [exact Hr|]. split; [exact Hc|].
  apply (R_first_nan A Hr Hc); simpl; lia.
Qed.

Lemma qr_returns_one_by_one_only_witness :
  qr_decomposition A_1x1 = Ok (Q_first A_1x1, R_first A_1x1) /\
  nrows A_1x1 = 1%nat /\ ncols A_1x1 = 1%nat /\
  get (R_first A_1x1) 0%nat 0%nat = nan.
Proof.
  split; [exact (qr_decomposition_one A_1x1 eq_refl eq_refl)|].
  apply (qr_returns_one_by_one_only A_1x1 (Q_first A_1x1) (R_first A_1x1)).
  exact (qr_decomposition_one A_1x1 eq_refl eq_refl).
Defined.

(** C4: on every matrix whose number of rows differs from its number of
    columns, [qr_decomposition] fails with the shape error and returns
    nothing. *)
Theorem qr_non_square (A : ndarray) :
  nrows A <> ncols A -> qr_decomposition A = Err ShapeMismatch.
Proof.
  intros H. unfold qr_decomposition, shape.
  replace (nrows A =? ncols A) with false
    by (symmetry; apply Nat.eqb_neq; exact H).
  reflexivity.
Qed.

Lemma qr_non_square_witness :
  nrows B_notebook <> ncols B_notebook /\
  qr_decomposition B_notebook = Err ShapeMismatch.
Proof.
  split; [simpl; lia|].
  apply (qr_non_square B_notebook). simpl; lia.
Defined.



(** C9: what the code does where the claim expects Q = I and R = I: on
    every identity matrix of size two or more the call raises TypeError,
    and on the identity of size one it returns nan for Q and for R. *)
Theorem qr_identity_fails (m : nat) :
  qr_decomposition (eye (S (S m))) = Err TypeError /\
  qr_decomposition I3 = Err TypeError /\
  exists Q T, qr_decomposition (eye 1) = Ok (Q, T) /\
    get Q 0%nat 0%nat = nan /\ get T 0%nat 0%nat = nan.
Proof.
  split; [apply qr_decomposition_large; [reflexivity | simpl; lia]|].
  split; [apply qr_decomposition_large; [reflexivity | simpl; lia]|].
  exists (Q_first (eye 1)), (R_first (eye 1)).
  split; [exact (qr_decomposition_one (eye 1) eq_refl eq_refl)|].
  split; [reflexivity|].
  apply (R_first_nan (eye 1)); simpl; lia.
Qed.

(** ** The run on the store *)

Lemma nth_last (h : heap) X d : nth (length h) (h ++ [X]) d = X.
Proof. apply nth_middle. Qed.

Lemma update_last (h : heap) X Y : update (length h) Y (h ++ [X]) = h ++ [Y].
Proof.
  induction h as [|Z h IH]; simpl; [reflexivity | rewrite IH; reflexivity].
Qed.

(** The run on references against the value-level function: on success the
    store grows by exactly Q and R; on failure it grows by at most the
    working copy. *)
Lemma h_qr_decomposition_run h a :
  (a < length h)%nat ->
  match qr_decomposition (nth a h (eye 0)) with
  | Ok (Q, T) =>
      h_qr_decomposition a h =
      (Ok (length h, S (length h)), h ++ [Q; T])
  | Err e =>
      exists ext, h_qr_decomposition a h = (Err e, h ++ ext) /\
                  (length ext <= 1)%nat
  end.
Proof.
  intros Ha.
  assert (HA : forall X, nth a (h ++ [X]) (eye 0) = nth a h (eye 0))
    by (intros; apply app_nth1; exact Ha).
  unfold qr_decomposition, h_qr_decomposition, h_copy, h_getcol, h_setcol,
    h_matmul_T, st_bind, load, alloc, lift, store, ret, raise, bind, shape.
  cbv beta iota.
  destruct (negb (nrows (nth a h (eye 0)) =? ncols (nth a h (eye 0)))).
  { exists []. rewrite app_nil_r. split; [reflexivity | simpl; lia]. }
  rewrite HA, nth_last.
  remember (nth a h (eye 0)) as A eqn:EA.
  destruct (getcol A 0) as [a0|e].
  2:{ eexists [_]. split; [reflexivity | simpl; lia]. }
  destruct (setcol (copy A) 0 (normalize_col a0)) as [Q0|e].
  2:{ eexists [_]. split; [reflexivity | simpl; lia]. }
  rewrite update_last.
  destruct (nrows A - 1)%nat as [|k].
  - simpl. rewrite nth_last, HA.
    destruct (matmul (transpose Q0) A) as [T|e].
    + rewrite length_app, <- app_assoc. simpl.
      rewrite Nat.add_1_r. reflexivity.
    + eexists [_]. split; [reflexivity | simpl; lia].
  - simpl. eexists [_]. split; [reflexivity | simpl; lia].
Qed.

(** C10: whatever the input and whether the call succeeds or fails,
    [qr_decomposition] leaves the caller's array, and every other array
    that existed before the call, as it was: the store only grows, the
    working copy and the result live in the new part, and a successful call
    returns two distinct new arrays. *)
Theorem qr_leaves_input (h : heap) (a : loc) :
  (a < length h)%nat ->
  exists ext,
    snd (h_qr_decomposition a h) = h ++ ext /\
    nth a (snd (h_qr_decomposition a h)) (eye 0) = nth a h (eye 0) /\
    match fst (h_qr_decomposition a h) with
    | Ok (q, r) =>
        (length h <= q < length (h ++ ext))%nat /\
        (length h <= r < length (h ++ ext))%nat /\ q <> r
    | Err _ => True
    end.
Proof.
  intros Ha. pose proof (h_qr_decomposition_run h a Ha) as Hrun.
  destruct (qr_decomposition (nth a h (eye 0))) as [[Q T]|e].
  - exists [Q; T]. rewrite Hrun. simpl fst. simpl snd.
    split; [reflexivity|]. split; [apply app_nth1; exact Ha|].
    rewrite length_app. simpl. lia.
  - destruct Hrun as [ext [Hrun _]]. exists ext. rewrite Hrun.
    simpl fst. simpl snd.
    split; [reflexivity|]. split; [apply app_nth1; exact Ha | exact I].
Qed.

Lemma qr_leaves_input_witness :
  (0 < length [A_notebook])%nat /\
  exists ext,
    snd (h_qr_decomposition 0%nat [A_notebook]) = [A_notebook] ++ ext /\
    nth 0%nat (snd (h_qr_decomposition 0%nat [A_notebook])) (eye 0) =
      nth 0%nat [A_notebook] (eye 0) /\
    match fst (h_qr_decomposition 0%nat [A_notebook]) with
    | Ok (q, r) =>
        (length [A_notebook] <= q < length ([A_notebook] ++ ext))%nat /\
        (length [A_notebook] <= r < length ([A_notebook] ++ ext))%nat /\
        q <> r
    | Err _ => True
    end.
Proof.
  split; [simpl; lia|].
  apply (qr_leaves_input [A_notebook] 0%nat). simpl; lia.
Defined.

(** ** Every outcome of the decomposition *)

(** X1: on a matrix with no rows and no columns the call raises
    IndexError: the shape check passes and column 0 does not exist. *)
Theorem qr_empty_index_error (A : ndarray) :
  nrows A = 0%nat -> ncols A = 0%nat ->
  qr_decomposition A = Err IndexError.
Proof. exact (qr_decomposition_no_column A). Qed.

Lemma qr_empty_index_error_witness :
  nrows (eye 0) = 0%nat /\ ncols (eye 0) = 0%nat /\
  qr_decomposition (eye 0) = Err IndexError.
Proof.
  split; [reflexivity|]. split; [reflexivity|].
  apply (qr_empty_index_error (eye 0)); reflexivity.
Defined.

(** X2: each failure pins down the shape of the input: the shape error is
    raised only on a non-square matrix, IndexError only on the matrix with
    no rows and no columns, TypeError only on a square matrix with two rows
    or more; no call fails with AttributeError or DegenerateInput. *)
Theorem qr_error_cause (A : ndarray) (e : error) :
  qr_decomposition A = Err e ->
  match e with
  | ShapeMismatch => nrows A <> ncols A
  | IndexError => nrows A = 0%nat /\ ncols A = 0%nat
  | TypeError => nrows A = ncols A /\ (2 <= nrows A)%nat
  | AttributeError => False
  | DegenerateInput => False
  end.
Proof. exact (qr_err_inv A e). Qed.

Lemma A_dependent_raises : qr_decomposition A_dependent = Err TypeError.
Proof. apply qr_decomposition_large; [reflexivity | simpl; lia]. Qed.

Lemma qr_error_cause_witness :
  qr_decomposition A_dependent = Err TypeError /\
  nrows A_dependent = ncols A_dependent /\ (2 <= nrows A_dependent)%nat.
Proof.
  split; [exact A_dependent_raises|].
  apply (qr_error_cause A_dependent TypeError). exact A_dependent_raises.
Defined.

(** X3: a pair is returned exactly when the input has one row and one
    column. *)
Theorem qr_succeeds_iff (A : ndarray) :
  (exists Q T, qr_decomposition A = Ok (Q, T)) <->
  (nrows A = 1%nat /\ ncols A = 1%nat).
Proof.
  split.
  - intros [Q [T H]]. destruct (qr_ok_inv A Q T H) as (Hr & Hc & _). tauto.
  - intros [Hr Hc]. exists (Q_first A), (R_first A).
    exact (qr_decomposition_one A Hr Hc).
Qed.

(** X4: whenever a pair (Q, R) is returned, Q and R both have the shape of
    the input. *)
Theorem qr_result_shape (A Q T : ndarray) :
  qr_decomposition A = Ok (Q, T) ->
  shape Q = shape A /\ shape T = shape A.
Proof.
  intros H. destruct (qr_ok_inv A Q T H) as (Hr & Hc & -> & ->).
  unfold shape. simpl. split; congruence.
Qed.

Lemma qr_result_shape_witness :
  qr_decomposition A_1x1 = Ok (Q_first A_1x1, R_first A_1x1) /\
  shape (Q_first A_1x1) = shape A_1x1 /\
  shape (R_first A_1x1) = shape A_1x1.
Proof.
  split; [exact (qr_decomposition_one A_1x1 eq_refl eq_refl)|].
  apply (qr_result_shape A_1x1 (Q_first A_1x1) (R_first A_1x1)).
  exact (qr_decomposition_one A_1x1 eq_refl eq_refl).
Defined.

(** X5: whenever a pair (Q, R) is returned, every entry of Q and every
    entry of R is nan, whatever the entries of the input. *)
Theorem qr_result_all_nan (A Q T : ndarray) :
  qr_decomposition A = Ok (Q, T) -> all_nan Q /\ all_nan T.
Proof.
  intros H. destruct (qr_ok_inv A Q T H) as (Hr & Hc & -> & ->).
  split; [exact (Q_first_nan A Hc) | exact (R_first_nan A Hr Hc)].
Qed.

Lemma qr_result_all_nan_witness :
  qr_decomposition A_1x1 = Ok (Q_first A_1x1, R_first A_1x1) /\
  all_nan (Q_first A_1x1) /\ all_nan (R_first A_1x1).
Proof.
  split; [exact (qr_decomposition_one A_1x1 eq_refl eq_refl)|].
  apply (qr_result_all_nan A_1x1 (Q_first A_1x1) (R_first A_1x1)).
  exact (qr_decomposition_one A_1x1 eq_refl eq_refl).
Defined.

(** X15: on a non-square array the call on the store fails with the shape
    error before anything is allocated: the store is exactly as it was. *)
Theorem h_qr_non_square (h : heap) (a : loc) :
  nrows (nth a h (eye 0)) <> ncols (nth a h (eye 0)) ->
  h_qr_decomposition a h = (Err ShapeMismatch, h).
Proof.
  intros H. unfold h_qr_decomposition, st_bind, load, raise, shape.
  replace (nrows (nth a h (eye 0)) =? ncols (nth a h (eye 0))) with false
    by (symmetry; apply Nat.eqb_neq; exact H).
  reflexivity.
Qed.

Lemma h_qr_non_square_witness :
  nrows (nth 0%nat [B_notebook] (eye 0)) <>
  ncols (nth 0%nat [B_notebook] (eye 0)) /\
  h_qr_decomposition 0%nat [B_notebook] = (Err ShapeMismatch, [B_notebook]).
Proof.
  split; [simpl; lia|].
  apply (h_qr_non_square [B_notebook] 0%nat). simpl; lia.
Defined.

(** X16: the call on the store computes what the call on values computes:
    it fails with the same error, or it returns references to two arrays
    appended to the store, first Q and then R, which are the Q and R of the
    value-level call on the caller's array. *)
Theorem h_qr_agrees (h : heap) (a : loc) :
  (a < length h)%nat ->
  match qr_decomposition (nth a h (eye 0)) with
  | Ok (Q, T) =>
      h_qr_decomposition a h = (Ok (length h, S (length h)), h ++ [Q; T])
  | Err e => fst (h_qr_decomposition a h) = Err e
  end.
Proof.
  intros Ha. pose proof (h_qr_decomposition_run h a Ha) as Hrun.
  destruct (qr_decomposition (nth a h (eye 0))) as [[Q T]|e].
  - exact Hrun.
  - destruct Hrun as [ext [-> _]]. reflexivity.
Qed.

Lemma h_qr_agrees_witness :
  (0 < length [A_1x1])%nat /\
  match qr_decomposition (nth 0%nat [A_1x1] (eye 0)) with
  | Ok (Q, T) =>
      h_qr_decomposition 0%nat [A_1x1] =
      (Ok (length [A_1x1], S (length [A_1x1])), [A_1x1] ++ [Q; T])
  | Err e => fst (h_qr_decomposition 0%nat [A_1x1]) = Err e
  end.
Proof.
  split; [simpl; lia|].
  apply (h_qr_agrees [A_1x1] 0%nat). simpl; lia.
Defined.

(** X18: on a square array with two rows or more the call on the store
    fails with TypeError after the working copy was made and its first
    column overwritten: the store has grown by that one array, whose
    column 0 holds nan, and the caller's array is among the old ones. *)
Theorem h_qr_large_store (h : heap) (a : loc) :
  (a < length h)%nat ->
  nrows (nth a h (eye 0)) = ncols (nth a h (eye 0)) ->
  (2 <= nrows (nth a h (eye 0)))%nat ->
  h_qr_decomposition a h =
  (Err TypeError, h ++ [Q_first (nth a h (eye 0))]).
Proof.
  intros Ha Hsq Hn.
  assert (HA : forall X, nth a (h ++ [X]) (eye 0) = nth a h (eye 0))
    by (intros; apply app_nth1; exact Ha).
  unfold h_qr_decomposition, h_copy, h_getcol, h_setcol,
    h_matmul_T, st_bind, load, alloc, lift, store, ret, raise, shape.
  cbv beta iota.
  rewrite <- Hsq, Nat.eqb_refl. change (negb true) with false.
  cbv beta iota. rewrite HA, nth_last.
  remember (nth a h (eye 0)) as A eqn:EA.
  unfold getcol, setcol, normalize_col. simpl.
  rewrite <- Hsq.
  replace (0 <? nrows A) with true by (symmetry; apply Nat.ltb_lt; lia).
  simpl. rewrite update_last.
  destruct (nrows A) as [|[|k]] eqn:E; try lia.
  simpl. unfold Q_first. rewrite E, <- Hsq. reflexivity.
Qed.

Lemma h_qr_large_store_witness :
  (0 < length [A_notebook])%nat /\
  h_qr_decomposition 0%nat [A_notebook] =
  (Err TypeError, [A_notebook] ++ [Q_first (nth 0%nat [A_notebook] (eye 0))]).
Proof.
  split; [simpl; lia|].
  apply (h_qr_large_store [A_notebook] 0%nat).
  - simpl; lia.
  - reflexivity.
  - simpl; lia.
Defined.
